(** * Ctrl-F: annual-mean map with drill-down time series

    A shallow embedding of the two CDS Toolbox applications of the
    repository, [Ctrl_F_CDS_toolbox.py] (2 m temperature) and
    [Ctrl_F_Precipitation.py] (total precipitation).

    Both scripts are straight-line glue around the [cdstoolbox] library:
    [application(year)] retrieves twelve monthly fields, averages them over
    time and puts the mean on a live map; [plot_time_series(location, data)]
    is the child application launched by a click on that map.

    The library is not part of the repository, so it enters as an interface
    ([Toolbox]); the Python object store, the log of library calls and the
    exceptions are explicit. *)

From Stdlib Require Import ZArith String Ascii.
From stdpp Require Import gmap strings list.

Local Open Scope string_scope.
Local Open Scope list_scope.
Local Open Scope Z_scope.

(** ** Python values shared by both scripts *)

(** An exception: its class name and its argument. *)
Record exn := Exn { exn_class : string; exn_arg : string }.

(** [d[k]] on a dict without the key [k]. *)
Definition KeyError (k : string) : exn := Exn "KeyError" k.
(** A call whose keyword arguments do not fit the callee's signature. *)
Definition TypeError (msg : string) : exn := Exn "TypeError" msg.
(** Only for totality of the model: a reference that was never allocated. *)
Definition ReferenceError : exn := Exn "ReferenceError" "".

Inductive result (A : Type) : Type :=
| Ok (a : A)
| Raise (e : exn).
Arguments Ok {A} a.
Arguments Raise {A} e.

(** The request dictionary handed to [ct.catalogue.retrieve]. *)
Record Query := {
  product_type : string;
  variable : list string;
  year : Z;
  month : list string;
  time : string
}.

(** Objects live in a store and are passed by reference. *)
Definition ref := nat.

(** ** The toolbox interface

    [Num] is the type of Python floats (coordinates and data values),
    [Cube] the data objects of the library, [Figure] its charts.  The
    five operations are the five library calls the scripts make; each one
    may raise.  Drawing a map depends on the data it draws; the keyword
    arguments for the child are only stored in the map.  The remote catalogue is part of the instance: an instance
    is one snapshot of it.  The remaining fields observe a cube: the names
    of its dimensions, the labels along its time axis, the series of a
    point extraction and the spatial extent. *)
Class Toolbox := {
  Num : Type;
  Cube : Type;
  Figure : Type;
  catalogue_retrieve : string -> Query -> result Cube;
  cube_average : Cube -> string -> result Cube;
  geo_extract_point : Cube -> Num -> Num -> result Cube;  (* cube, lon, lat *)
  chart_line : Cube -> result Figure;
  livemap_plot : Cube -> result unit;
  cube_dims : Cube -> list string;
  cube_months : Cube -> list string;
  point_series : Cube -> list (string * Num);
  in_extent : Cube -> Num -> Num -> bool                  (* cube, lon, lat *)
}.

(** The contract assumed of the library where a claim depends on what a
    call returns: the retrieval yields a cube over (time, lat, lon) with
    one time step per requested month, in the order of the request;
    averaging over a dimension removes it; extraction succeeds inside the
    extent and keeps the time axis. *)
Class ToolboxContract (tb : Toolbox) : Prop := {
  retrieve_dims : forall ds q c,
    catalogue_retrieve ds q = Ok c -> cube_dims c = ["time"; "lat"; "lon"];
  retrieve_months : forall ds q c,
    catalogue_retrieve ds q = Ok c -> cube_months c = month q;
  average_dims : forall c d g,
    cube_average c d = Ok g ->
    cube_dims g = filter (fun x => x <> d) (cube_dims c);
  extract_total : forall c lon lat,
    in_extent c lon lat = true -> exists d, geo_extract_point c lon lat = Ok d;
  extract_months : forall c lon lat d,
    geo_extract_point c lon lat = Ok d ->
    (point_series d).*1 = cube_months c
}.

(** The month a time label such as ['07'] stands for. *)
Definition digit_of (c : ascii) : option nat :=
  let n := nat_of_ascii c in
  if ((48 <=? n) && (n <=? 57))%nat then Some (n - 48)%nat else None.

Definition month_number (s : string) : option nat :=
  match s with
  | String a (String b EmptyString) =>
      match digit_of a, digit_of b with
      | Some x, Some y => Some (10 * x + y)%nat
      | _, _ => None
      end
  | _ => None
  end.

Section Model.
Context {tb : Toolbox}.

(** ** Library calls, store and exceptions *)

(** One entry per call into the library, in program order. *)
Inductive event : Type :=
| EvRetrieve (dataset : string) (q : Query)
| EvAverage (data : ref) (dim : string)
| EvExtractPoint (data : ref) (lon lat : Num)
| EvChartLine (data : ref)
| EvLivemapPlot (data : ref) (kwargs : gmap string ref).

Record PyState := {
  heap : list Cube;
  trace : list event
}.

Definition M (A : Type) : Type := PyState -> PyState * result A.

Definition ret {A} (a : A) : M A := fun st => (st, Ok a).
Definition raise {A} (e : exn) : M A := fun st => (st, Raise e).
Definition bind {A B} (m : M A) (k : A -> M B) : M B :=
  fun st =>
    match m st with
    | (st', Ok a) => k a st'
    | (st', Raise e) => (st', Raise e)
    end.

Definition log (ev : event) : M unit :=
  fun st => ({| heap := heap st; trace := trace st ++ [ev] |}, Ok tt).

(** A new object; nothing that exists is overwritten. *)
Definition alloc (c : Cube) : M ref :=
  fun st => ({| heap := heap st ++ [c]; trace := trace st |},
             Ok (length (heap st))).

Definition deref (r : ref) : M Cube :=
  fun st =>
    match heap st !! r with
    | Some c => (st, Ok c)
    | None => (st, Raise ReferenceError)
    end.

Definition lift {A} (r : result A) : M A := fun st => (st, r).

End Model.

Notation "'let*' x ':=' m 'in' k" := (bind m (fun x => k))
  (at level 10, x name, m at level 100, k at level 200).
Notation "'do' m 'then' k" := (bind m (fun _ => k))
  (at level 10, m at level 100, k at level 200).

Section Calls.
Context {tb : Toolbox}.

(** [ct.catalogue.retrieve(dataset, request)] *)
Definition ct_catalogue_retrieve (dataset : string) (q : Query) : M ref :=
  do log (EvRetrieve dataset q) then
  let* c := lift (catalogue_retrieve dataset q) in
  alloc c.

(** [ct.cube.average(data, dim=dim)] *)
Definition ct_cube_average (data : ref) (dim : string) : M ref :=
  do log (EvAverage data dim) then
  let* c := deref data in
  let* g := lift (cube_average c dim) in
  alloc g.

(** [ct.geo.extract_point(data, lon=lon, lat=lat)] *)
Definition ct_geo_extract_point (data : ref) (lon lat : Num) : M ref :=
  do log (EvExtractPoint data lon lat) then
  let* c := deref data in
  let* d := lift (geo_extract_point c lon lat) in
  alloc d.

(** [ct.chart.line(data)] *)
Definition ct_chart_line (data : ref) : M Figure :=
  do log (EvChartLine data) then
  let* c := deref data in
  lift (chart_line c).

(** The live map object: the layer it shows and the keyword arguments it
    hands to the child application on a click. *)
Record Livemap := {
  layer : ref;
  click_kwargs : gmap string ref
}.

(** [ct.livemap.plot(data, click_kwargs=kwargs)] *)
Definition ct_livemap_plot (data : ref) (kwargs : gmap string ref) : M Livemap :=
  do log (EvLivemapPlot data kwargs) then
  let* c := deref data in
  do lift (livemap_plot c) then
  ret {| layer := data; click_kwargs := kwargs |}.

(** [d[k]] *)
Definition getitem {V} (d : gmap string V) (k : string) : M V :=
  match d !! k with
  | Some v => ret v
  | None => raise (KeyError k)
  end.

(** A click on the map calls the child as [child(location, **kwargs)]:
    Python binds every keyword to the parameter of that name.  The child
    of either script has one parameter besides [location].  A keyword
    that names no parameter is reported first, then a parameter left
    without argument; the messages follow CPython's wording, for a
    dictionary with several foreign keys the one reported is the first
    of [map_to_list]. *)
Definition call_child {A} (fname param : string)
    (child : gmap string Num -> ref -> M A)
    (location : gmap string Num) (kwargs : gmap string ref) : M A :=
  match map_to_list (delete param kwargs) with
  | (k, _) :: _ =>
      raise (TypeError (fname +:+ "() got an unexpected keyword argument '"
                        +:+ k +:+ "'"))
  | [] =>
      match kwargs !! param with
      | Some data => child location data
      | None =>
          raise (TypeError (fname +:+
                            "() missing 1 required positional argument: '"
                            +:+ param +:+ "'"))
      end
  end.

End Calls.

(** ** The declarations made by the decorators *)

(** [@ct.application(title=..., fullscreen=..., layout=...)] *)
Record AppDecl := {
  title : string;
  fullscreen : bool;
  layout : gmap string string
}.

(** [@ct.input.dropdown(name, values=..., label=...)] *)
Record Dropdown := {
  dd_name : string;
  dd_values : list Z;
  dd_label : string
}.

(** ** Ctrl_F_CDS_toolbox.py *)
Module Temperature.
Section Script.
Context {tb : Toolbox}.

Definition app_layout : gmap string string :=
  {[ "output_align" := "bottom" ]}.

Definition plot_time_series (location : gmap string Num)
    (monthly_temperature : ref) : M Figure :=
  let* lat := getitem location "lat" in
  let* lon := getitem location "lon" in
  let* data_sel := ct_geo_extract_point monthly_temperature lon lat in
  let* fig := ct_chart_line data_sel in
  ret fig.

Definition decl : AppDecl :=
  {| title := "Ctrl-F"; fullscreen := true; layout := app_layout |}.

Definition dropdown : Dropdown :=
  {| dd_name := "year"; dd_values := [2020; 2021; 2022; 2023];
     dd_label := "Year" |}.

(** [@ct.output.livemap(click_on_map=plot_time_series)] *)
Definition click_on_map : gmap string Num -> gmap string ref -> M Figure :=
  call_child "plot_time_series" "monthly_temperature" plot_time_series.

Definition application (year : Z) : M Livemap :=
  let* monthly_temperature_data :=
    ct_catalogue_retrieve "reanalysis-era5-single-levels-monthly-means"
      {| product_type := "monthly_averaged_reanalysis";
         variable := ["2m_temperature"];
         year := year;
         month := ["01"; "02"; "03"; "04"; "05"; "06";
                   "07"; "08"; "09"; "10"; "11"; "12"];
         time := "00:00" |} in
  let* mean_annual_temperature :=
    ct_cube_average monthly_temperature_data "time" in
  let child_kwargs_dict : gmap string ref :=
    {[ "monthly_temperature" := monthly_temperature_data ]} in
  let* plot := ct_livemap_plot mean_annual_temperature child_kwargs_dict in
  ret plot.

End Script.
End Temperature.

(** ** Ctrl_F_Precipitation.py *)
Module Precipitation.
Section Script.
Context {tb : Toolbox}.

Definition app_layout : gmap string string :=
  {[ "output_align" := "bottom" ]}.

Definition plot_time_series (location : gmap string Num)
    (monthly_precipitation : ref) : M Figure :=
  let* lat := getitem location "lat" in
  let* lon := getitem location "lon" in
  let* data_sel := ct_geo_extract_point monthly_precipitation lon lat in
  let* fig := ct_chart_line data_sel in
  ret fig.

Definition decl : AppDecl :=
  {| title := "Ctrl F - Precipitation"; fullscreen := true;
     layout := app_layout |}.

Definition dropdown : Dropdown :=
  {| dd_name := "year"; dd_values := [2020; 2021; 2022; 2023];
     dd_label := "Year" |}.

(** [@ct.output.livemap(click_on_map=plot_time_series)] *)
Definition click_on_map : gmap string Num -> gmap string ref -> M Figure :=
  call_child "plot_time_series" "monthly_precipitation" plot_time_series.

Definition application (year : Z) : M Livemap :=
  let* monthly_precipitation_data :=
    ct_catalogue_retrieve "reanalysis-era5-single-levels-monthly-means"
      {| product_type := "monthly_averaged_reanalysis";
         variable := ["total_precipitation"];
         year := year;
         month := ["01"; "02"; "03"; "04"; "05"; "06";
                   "07"; "08"; "09"; "10"; "11"; "12"];
         time := "00:00" |} in
  let* mean_annual_precipitation :=
    ct_cube_average monthly_precipitation_data "time" in
  let child_kwargs_dict : gmap string ref :=
    {[ "monthly_precipitation" := monthly_precipitation_data ]} in
  let* plot := ct_livemap_plot mean_annual_precipitation child_kwargs_dict in
  ret plot.

End Script.
End Precipitation.

(** ** The two applications side by side *)

Inductive App := TemperatureApp | PrecipitationApp.

Section Apps.
Context {tb : Toolbox}.

Definition application_of (a : App) : Z -> M Livemap :=
  match a with
  | TemperatureApp => Temperature.application
  | PrecipitationApp => Precipitation.application
  end.

Definition plot_time_series_of (a : App)
  : gmap string Num -> ref -> M Figure :=
  match a with
  | TemperatureApp => Temperature.plot_time_series
  | PrecipitationApp => Precipitation.plot_time_series
  end.

Definition click_on_map_of (a : App)
  : gmap string Num -> gmap string ref -> M Figure :=
  match a with
  | TemperatureApp => Temperature.click_on_map
  | PrecipitationApp => Precipitation.click_on_map
  end.

Definition dropdown_of (a : App) : Dropdown :=
  match a with
  | TemperatureApp => Temperature.dropdown
  | PrecipitationApp => Precipitation.dropdown
  end.

Definition decl_of (a : App) : AppDecl :=
  match a with
  | TemperatureApp => Temperature.decl
  | PrecipitationApp => Precipitation.decl
  end.

(** ** One user session

    The hosting framework keeps the output of the last run of
    [application] on screen and, on a click, calls the child registered
    with [click_on_map] with the click location and the map's
    [click_kwargs].  A run that raises leaves no map. *)
Record Session := {
  py : PyState;
  displayed : option Livemap
}.

Definition select_year_with (application : Z -> M Livemap)
    (s : Session) (y : Z) : Session :=
  let (st', r) := application y (py s) in
  {| py := st';
     displayed := match r with Ok plot => Some plot | Raise _ => None end |}.

Definition click_with
    (click_on_map : gmap string Num -> gmap string ref -> M Figure)
    (s : Session) (location : gmap string Num)
  : Session * option (result Figure) :=
  match displayed s with
  | None => (s, None)
  | Some plot =>
      let (st', r) := click_on_map location (click_kwargs plot) (py s) in
      ({| py := st'; displayed := displayed s |}, Some r)
  end.

Definition select_year (a : App) : Session -> Z -> Session :=
  select_year_with (application_of a).

Definition click (a : App)
  : Session -> gmap string Num -> Session * option (result Figure) :=
  click_with (click_on_map_of a).

Definition select_years (a : App) (s : Session) (ys : list Z) : Session :=
  foldl (select_year a) s ys.

End Apps.

(** The values the year dropdown of both scripts offers. *)
Definition allowed_years : list Z := [2020; 2021; 2022; 2023].

(** The dataset both scripts read. *)
Definition era5_monthly : string :=
  "reanalysis-era5-single-levels-monthly-means".

Definition all_months : list string :=
  ["01"; "02"; "03"; "04"; "05"; "06"; "07"; "08"; "09"; "10"; "11"; "12"].

(** The physical variable of an application and the keyword under which
    it hands the monthly data to its child. *)
Definition variable_of (a : App) : string :=
  match a with
  | TemperatureApp => "2m_temperature"
  | PrecipitationApp => "total_precipitation"
  end.

Definition child_param_of (a : App) : string :=
  match a with
  | TemperatureApp => "monthly_temperature"
  | PrecipitationApp => "monthly_precipitation"
  end.

(** The request for one variable and one year. *)
Definition request (v : string) (y : Z) : Query :=
  {| product_type := "monthly_averaged_reanalysis";
     variable := [v];
     year := y;
     month := all_months;
     time := "00:00" |}.

(** ** The parameterized program

    The spec's ParameterizedMapApplication and DrillDownView: the text the
    two scripts share, with the variable identifier and the name of the
    child's data parameter left open. *)
Module Parameterized.
Section Program.
Context {tb : Toolbox}.

Record VariableSpec := {
  identifier : string;
  displayLabel : string
}.

Definition plot_time_series (location : gmap string Num)
    (monthly_data : ref) : M Figure :=
  let* lat := getitem location "lat" in
  let* lon := getitem location "lon" in
  let* data_sel := ct_geo_extract_point monthly_data lon lat in
  let* fig := ct_chart_line data_sel in
  ret fig.

Definition click_on_map (param : string)
  : gmap string Num -> gmap string ref -> M Figure :=
  call_child "plot_time_series" param plot_time_series.

Definition application (v : VariableSpec) (param : string) (year : Z)
  : M Livemap :=
  let* monthly_data :=
    ct_catalogue_retrieve era5_monthly (request (identifier v) year) in
  let* mean_annual := ct_cube_average monthly_data "time" in
  let child_kwargs_dict : gmap string ref := {[ param := monthly_data ]} in
  let* plot := ct_livemap_plot mean_annual child_kwargs_dict in
  ret plot.

Definition decl (v : VariableSpec) : AppDecl :=
  {| title := displayLabel v; fullscreen := true;
     layout := {[ "output_align" := "bottom" ]} |}.

End Program.
End Parameterized.

Definition spec_of (a : App) : Parameterized.VariableSpec :=
  {| Parameterized.identifier := variable_of a;
     Parameterized.displayLabel :=
       match a with
       | TemperatureApp => "Ctrl-F"
       | PrecipitationApp => "Ctrl F - Precipitation"
       end |}.

(** What an outside observer sees of a library call: the keyword names
    under which data travel from the map to the child are private to the
    script. *)
Inductive call {tb : Toolbox} : Type :=
| CRetrieve (dataset : string) (q : Query)
| CAverage (data : ref) (dim : string)
| CExtractPoint (data : ref) (lon lat : Num)
| CChartLine (data : ref)
| CLivemapPlot (data : ref) (bound : list ref).

Definition call_of {tb : Toolbox} (ev : event) : call :=
  match ev with
  | EvRetrieve ds q => CRetrieve ds q
  | EvAverage r d => CAverage r d
  | EvExtractPoint r lon lat => CExtractPoint r lon lat
  | EvChartLine r => CChartLine r
  | EvLivemapPlot r kw => CLivemapPlot r (map_to_list kw).*2
  end.

Record Observation {tb : Toolbox} := {
  obs_heap : list Cube;
  obs_calls : list call;
  obs_layer : option ref;
  obs_bound : option (list ref);
  obs_chart : option (result Figure)
}.

Definition observe {tb : Toolbox}
    (o : Session * option (result Figure)) : Observation :=
  {| obs_heap := heap (py o.1);
     obs_calls := call_of <$> trace (py o.1);
     obs_layer := layer <$> displayed o.1;
     obs_bound :=
       (fun p => (map_to_list (click_kwargs p)).*2) <$> displayed o.1;
     obs_chart := o.2 |}.

(** ** A small toolbox to run the scripts on

    A five by four grid of integers per month.  Extraction takes the
    nearest grid point, so it succeeds on every non-empty grid, inside
    the extent or not. *)
Module Demo.

Record cube := {
  c_dims : list string;
  c_months : list string;
  c_lats : list Z;
  c_lons : list Z;
  c_data : list (list (list Z))          (* time, lat, lon *)
}.

Definition lats : list Z := [-90; -45; 0; 45; 90].
Definition lons : list Z := [-180; -90; 0; 90].

Definition field (v : string) (y : Z) (m : string) (lat lon : Z) : Z :=
  (if decide (v = "2m_temperature") then 300 else 40)
  + (y - 2020) + Z.of_nat (default 0%nat (month_number m))
  - Z.abs lat / 3 + lon / 90.

Definition retrieve (ds : string) (q : Query) : result cube :=
  if decide (ds = era5_monthly) then
    match variable q with
    | [v] =>
        if (1940 <=? year q) && (year q <=? 2023) then
          Ok {| c_dims := ["time"; "lat"; "lon"];
                c_months := month q;
                c_lats := lats;
                c_lons := lons;
                c_data :=
                  map (fun m => map (fun la => map (field v (year q) m la)
                                                   lons) lats) (month q) |}
        else Raise (Exn "Exception" "no data for this year")
    | _ => Raise (Exn "Exception" "one variable expected")
    end
  else Raise (Exn "Exception" "unknown dataset").

Definition add_slice (a b : list (list Z)) : list (list Z) :=
  zip_with (zip_with Z.add) a b.

Definition mean_over_time (d : list (list (list Z))) : list (list Z) :=
  match d with
  | [] => []
  | s :: rest =>
      map (map (fun x => x / Z.of_nat (length d))) (foldl add_slice s rest)
  end.

Definition average (c : cube) (d : string) : result cube :=
  if decide (d = "time") then
    if decide (d ∈ c_dims c) then
      Ok {| c_dims := filter (fun x => x <> d) (c_dims c);
            c_months := [];
            c_lats := c_lats c;
            c_lons := c_lons c;
            c_data := [mean_over_time (c_data c)] |}
    else Raise (Exn "ValueError" "no such dimension")
  else Raise (Exn "NotImplementedError" d).

Fixpoint nearest_from (i : nat) (best : nat * Z) (xs : list Z) (x : Z) : nat :=
  match xs with
  | [] => best.1
  | x' :: xs' =>
      if Z.abs (x' - x) <? best.2
      then nearest_from (S i) (i, Z.abs (x' - x)) xs' x
      else nearest_from (S i) best xs' x
  end.

Definition nearest (xs : list Z) (x : Z) : option nat :=
  match xs with
  | [] => None
  | x0 :: xs' => Some (nearest_from 1 (0%nat, Z.abs (x0 - x)) xs' x)
  end.

Definition cell (s : list (list Z)) (i j : nat) : Z :=
  match s !! i with
  | Some row => default 0 (row !! j)
  | None => 0
  end.

Definition extract_point (c : cube) (lon lat : Z) : result cube :=
  match nearest (c_lats c) lat, nearest (c_lons c) lon with
  | Some i, Some j =>
      Ok {| c_dims := ["time"];
            c_months := c_months c;
            c_lats := take 1 (drop i (c_lats c));
            c_lons := take 1 (drop j (c_lons c));
            c_data :=
              map (fun s => [[cell s i j]]) (c_data c) |}
  | _, _ => Raise (Exn "ValueError" "empty grid")
  end.

Definition series (c : cube) : list (string * Z) :=
  imap (fun i m => (m, match c_data c !! i with
                        | Some s => cell s 0 0
                        | None => 0
                        end))
       (c_months c).

Definition within (xs : list Z) (x : Z) : bool :=
  existsb (fun a => a <=? x) xs && existsb (fun a => x <=? a) xs.

Definition extent (c : cube) (lon lat : Z) : bool :=
  within (c_lats c) lat && within (c_lons c) lon.

(** A map draws a field over latitude and longitude only. *)
Definition plot (c : cube) : result unit :=
  if decide ("time" ∈ c_dims c)
  then Raise (Exn "ValueError" "a map cannot draw a time axis")
  else Ok tt.

Definition toolbox : Toolbox :=
  {| Num := Z;
     Cube := cube;
     Figure := list (string * Z);
     catalogue_retrieve := retrieve;
     cube_average := average;
     geo_extract_point := extract_point;
     chart_line := fun c => Ok (series c);
     livemap_plot := plot;
     cube_dims := c_dims;
     cube_months := c_months;
     point_series := series;
     in_extent := extent |}.

(** The same toolbox with an averaging that always fails. *)
Definition toolbox_without_average : Toolbox :=
  {| Num := Z;
     Cube := cube;
     Figure := list (string * Z);
     catalogue_retrieve := retrieve;
     cube_average := fun _ _ => Raise (Exn "MemoryError" "average");
     geo_extract_point := extract_point;
     chart_line := fun c => Ok (series c);
     livemap_plot := plot;
     cube_dims := c_dims;
     cube_months := c_months;
     point_series := series;
     in_extent := extent |}.

Definition start : @Session toolbox :=
  {| py := {| heap := []; trace := [] |}; displayed := None |}.

(** A click on central London. *)
Definition london : gmap string Z := {[ "lat" := 51; "lon" := 0 ]}.
(** The same click with a further key in the location. *)
Definition london_zoomed : gmap string Z :=
  {[ "lat" := 51; "lon" := 0; "zoom" := 7 ]}.
(** A click north of the pole. *)
Definition off_grid : gmap string Z := {[ "lat" := 95; "lon" := 0 ]}.

End Demo.

(** ** What the claims speak about *)

Section Notions.
Context {tb : Toolbox}.

(** The library calls made between two states. *)
Definition new_events (st st' : PyState) : list event :=
  drop (length (trace st)) (trace st').

(** Everything that existed before still exists, unchanged. *)
Definition preserved (st st' : PyState) : Prop :=
  forall i o, heap st !! i = Some o -> heap st' !! i = Some o.

(** The grid on screen. *)
Definition rendered_grid (s : Session) : option Cube :=
  match displayed s with
  | Some plot => heap (py s) !! layer plot
  | None => None
  end.

(** The annual mean of a variable for a year, by the catalogue and the
    averaging of the library alone. *)
Definition annual_mean (v : string) (y : Z) : option Cube :=
  match catalogue_retrieve era5_monthly (request v y) with
  | Ok c =>
      match cube_average c "time" with
      | Ok g => Some g
      | Raise _ => None
      end
  | Raise _ => None
  end.

(** The grid [application] puts on the map for a variable and a year:
    the annual mean, when the library draws it. *)
Definition shown_mean (v : string) (y : Z) : option Cube :=
  match annual_mean v y with
  | Some g =>
      match livemap_plot g with
      | Ok _ => Some g
      | Raise _ => None
      end
  | None => None
  end.

(** The spec's [InvalidSelectionError]: the run ends in that exception
    with nothing logged, so before any retrieval. *)
Definition rejected_at_boundary (a : App) (y : Z) (st : PyState) : Prop :=
  exists e, exn_class e = "InvalidSelectionError" /\
            application_of a y st = (st, Raise e).

(** The spec's [OutOfBoundsError] for a run of the child. *)
Definition fails_out_of_bounds
    (a : App) (location : gmap string Num) (data : ref) (st : PyState)
  : Prop :=
  exists e st', exn_class e = "OutOfBoundsError" /\
                plot_time_series_of a location data st = (st', Raise e).

(** What the user does in a session. *)
Inductive ui_event : Type :=
| SelectYear (y : Z)
| Click (location : gmap string Num).

Definition step (a : App) (s : Session) (ev : ui_event) : Session :=
  match ev with
  | SelectYear y => select_year a s y
  | Click location => (click a s location).1
  end.

Definition run (a : App) (s : Session) (evs : list ui_event) : Session :=
  foldl (step a) s evs.

Definition is_selection (ev : ui_event) : bool :=
  match ev with
  | SelectYear _ => true
  | Click _ => false
  end.

Definition selections (evs : list ui_event) : nat :=
  length (List.filter is_selection evs).

Definition is_retrieve (ev : event) : bool :=
  match ev with
  | EvRetrieve _ _ => true
  | _ => false
  end.

(** The number of catalogue queries in a log. *)
Definition retrievals (t : list event) : nat :=
  length (List.filter is_retrieve t).

End Notions.

(** * Properties *)

Section Runs.
Context {tb : Toolbox}.

Lemma new_events_app st h t :
  new_events st {| heap := h; trace := trace st ++ t |} = t.
Proof. unfold new_events; simpl. by rewrite drop_app_length. Qed.

Lemma preserved_app st h t :
  preserved st {| heap := heap st ++ h; trace := t |}.
Proof. intros i o Hi; simpl. by apply lookup_app_l_Some. Qed.

Lemma lookup_fresh (h : list Cube) c : (h ++ [c]) !! length h = Some c.
Proof. by rewrite list_lookup_middle. Qed.

Lemma lookup_fresh_cons (h : list Cube) c l :
  (h ++ c :: l) !! length h = Some c.
Proof. by rewrite list_lookup_middle. Qed.

Lemma lookup_fresh_next (h : list Cube) c g l :
  (h ++ c :: g :: l) !! S (length h) = Some g.
Proof.
  rewrite (cons_middle c), (assoc_L (++)).
  rewrite <- Nat.add_1_r, <- (length_app h [c]) at 1.
  apply lookup_fresh_cons.
Qed.

(** The run of [application], call by call. *)
Lemma application_run v kw y st :
  Parameterized.application v kw y st =
  let r := length (heap st) in
  let q := request (Parameterized.identifier v) y in
  match catalogue_retrieve era5_monthly q with
  | Raise e =>
      ({| heap := heap st; trace := trace st ++ [EvRetrieve era5_monthly q] |},
       Raise e)
  | Ok c =>
      match cube_average c "time" with
      | Raise e =>
          ({| heap := heap st ++ [c];
              trace := trace st ++ [EvRetrieve era5_monthly q;
                                    EvAverage r "time"] |},
           Raise e)
      | Ok g =>
          ({| heap := heap st ++ [c; g];
              trace := trace st ++ [EvRetrieve era5_monthly q;
                                    EvAverage r "time";
                                    EvLivemapPlot (S r) {[ kw := r ]}] |},
           match livemap_plot g with
           | Ok _ => Ok {| layer := S r; click_kwargs := {[ kw := r ]} |}
           | Raise e => Raise e
           end)
      end
  end.
Proof.
  unfold Parameterized.application, ct_catalogue_retrieve, ct_cube_average,
    ct_livemap_plot, bind, log, lift, alloc, deref, ret; simpl.
  destruct (catalogue_retrieve _ _) as [c|e]; simpl; [|done].
  rewrite lookup_fresh.
  destruct (cube_average c "time") as [g|e]; simpl.
  - rewrite length_app, Nat.add_1_r; simpl.
    rewrite <- !(assoc_L (++)); simpl. rewrite lookup_fresh_next.
    by destruct (livemap_plot g).
  - by rewrite <- !(assoc_L (++)).
Qed.

(** The run of the child, call by call. *)
Lemma plot_time_series_run location r st :
  Parameterized.plot_time_series location r st =
  match location !! "lat" with
  | None => (st, Raise (KeyError "lat"))
  | Some lat =>
      match location !! "lon" with
      | None => (st, Raise (KeyError "lon"))
      | Some lon =>
          let t1 := trace st ++ [EvExtractPoint r lon lat] in
          match heap st !! r with
          | None => ({| heap := heap st; trace := t1 |}, Raise ReferenceError)
          | Some c =>
              match geo_extract_point c lon lat with
              | Raise e => ({| heap := heap st; trace := t1 |}, Raise e)
              | Ok d =>
                  ({| heap := heap st ++ [d];
                      trace := trace st ++ [EvExtractPoint r lon lat;
                                            EvChartLine (length (heap st))] |},
                   chart_line d)
              end
          end
      end
  end.
Proof.
  unfold Parameterized.plot_time_series, getitem, ct_geo_extract_point,
    ct_chart_line, bind, log, lift, alloc, deref, ret, raise.
  destruct (location !! "lat") as [lat|]; [|done].
  destruct (location !! "lon") as [lon|]; [|done]. simpl.
  destruct (heap st !! r) as [c|]; [|done]. simpl.
  destruct (geo_extract_point c lon lat) as [d|e]; [|done]. simpl.
  rewrite lookup_fresh, <- (assoc_L (++)). by destruct (chart_line d).
Qed.

(** Binding the one keyword the parent passes. *)
Lemma call_child_singleton {A} fname kw
    (child : gmap string Num -> ref -> M A) location r :
  call_child fname kw child location {[ kw := r ]} = child location r.
Proof.
  unfold call_child.
  by rewrite delete_singleton_eq, map_to_list_empty, lookup_singleton_eq.
Qed.

(** Both scripts are the parameterized program. *)
Lemma application_of_eq a :
  application_of a = Parameterized.application (spec_of a) (child_param_of a).
Proof. by destruct a. Qed.

Lemma plot_time_series_of_eq a :
  plot_time_series_of a = Parameterized.plot_time_series.
Proof. by destruct a. Qed.

Lemma click_on_map_of_eq a :
  click_on_map_of a = Parameterized.click_on_map (child_param_of a).
Proof. by destruct a. Qed.

End Runs.

Section Sessions.
Context {tb : Toolbox}.

(** A year selection that leaves a map on screen went through all three
    calls; the map holds the fresh mean and binds the fresh dataset. *)
Lemma select_year_Some a s y plot :
  displayed (select_year a s y) = Some plot ->
  exists c g,
    catalogue_retrieve era5_monthly (request (variable_of a) y) = Ok c /\
    cube_average c "time" = Ok g /\
    plot = {| layer := S (length (heap (py s)));
              click_kwargs := {[ child_param_of a := length (heap (py s)) ]} |} /\
    py (select_year a s y) =
      {| heap := heap (py s) ++ [c; g];
         trace := trace (py s) ++
           [EvRetrieve era5_monthly (request (variable_of a) y);
            EvAverage (length (heap (py s))) "time";
            EvLivemapPlot (S (length (heap (py s))))
              {[ child_param_of a := length (heap (py s)) ]}] |}.
Proof.
  unfold select_year, select_year_with.
  rewrite application_of_eq, application_run; simpl.
  replace (Parameterized.identifier (spec_of a)) with (variable_of a)
    by by destruct a.
  destruct (catalogue_retrieve _ _) as [c|e] eqn:Hc; [|done].
  destruct (cube_average c "time") as [g|e] eqn:Hg; [|done].
  destruct (livemap_plot g) as [[]|e]; [|done].
  simpl. intros [= <-]. by exists c, g.
Qed.

(** A click on a map that binds [r] runs the child on [r]. *)
Lemma click_bound a s location plot r :
  displayed s = Some plot ->
  click_kwargs plot = {[ child_param_of a := r ]} ->
  click a s location =
    ({| py := (Parameterized.plot_time_series location r (py s)).1;
        displayed := Some plot |},
     Some (Parameterized.plot_time_series location r (py s)).2).
Proof.
  intros Hd Hk. unfold click, click_with. rewrite Hd, Hk, click_on_map_of_eq.
  unfold Parameterized.click_on_map. rewrite call_child_singleton.
  by destruct (Parameterized.plot_time_series _ _ _).
Qed.

(** The converse: when the three calls succeed, the map shows. *)
Lemma select_year_shows a s y c g :
  catalogue_retrieve era5_monthly (request (variable_of a) y) = Ok c ->
  cube_average c "time" = Ok g ->
  livemap_plot g = Ok tt ->
  select_year a s y =
    {| py := {| heap := heap (py s) ++ [c; g];
                trace := trace (py s) ++
                  [EvRetrieve era5_monthly (request (variable_of a) y);
                   EvAverage (length (heap (py s))) "time";
                   EvLivemapPlot (S (length (heap (py s))))
                     {[ child_param_of a := length (heap (py s)) ]}] |};
       displayed :=
         Some {| layer := S (length (heap (py s)));
                 click_kwargs :=
                   {[ child_param_of a := length (heap (py s)) ]} |} |}.
Proof.
  intros Hc Hg Hp. unfold select_year, select_year_with.
  rewrite application_of_eq, application_run; simpl.
  replace (Parameterized.identifier (spec_of a)) with (variable_of a)
    by by destruct a.
  by rewrite Hc, Hg, Hp.
Qed.

(** Once the dataset is retrieved, the averaging is called on it,
    whatever comes after. *)
Lemma select_year_retrieved a s y c :
  catalogue_retrieve era5_monthly (request (variable_of a) y) = Ok c ->
  exists h t,
    py (select_year a s y) =
      {| heap := heap (py s) ++ c :: h;
         trace := trace (py s) ++
           EvRetrieve era5_monthly (request (variable_of a) y)
           :: EvAverage (length (heap (py s))) "time" :: t |} /\
    forall g, cube_average c "time" = Ok g ->
      h = [g] /\
      t = [EvLivemapPlot (S (length (heap (py s))))
             {[ child_param_of a := length (heap (py s)) ]}].
Proof.
  intros Hc. unfold select_year, select_year_with.
  rewrite application_of_eq, application_run; simpl.
  replace (Parameterized.identifier (spec_of a)) with (variable_of a)
    by by destruct a.
  rewrite Hc. destruct (cube_average c "time") as [g|e]; simpl.
  - eexists [g], _. split; [by destruct (livemap_plot g)|].
    by intros ? [= <-].
  - by exists [], [].
Qed.

(** The outcome of the child on a location with both keys. *)
Lemma plot_time_series_result location r st lat lon c :
  location !! "lat" = Some lat -> location !! "lon" = Some lon ->
  heap st !! r = Some c ->
  (Parameterized.plot_time_series location r st).2 =
    match geo_extract_point c lon lat with
    | Ok d => chart_line d
    | Raise e => Raise e
    end.
Proof.
  intros Hlat Hlon Hr. rewrite plot_time_series_run, Hlat, Hlon, Hr; simpl.
  by destruct (geo_extract_point c lon lat).
Qed.

(** Its first library call is the extraction from the object it got. *)
Lemma plot_time_series_first_call location r st lat lon c :
  location !! "lat" = Some lat -> location !! "lon" = Some lon ->
  heap st !! r = Some c ->
  new_events st (Parameterized.plot_time_series location r st).1 !! 0%nat =
    Some (EvExtractPoint r lon lat).
Proof.
  intros Hlat Hlon Hr. rewrite plot_time_series_run, Hlat, Hlon, Hr; simpl.
  destruct (geo_extract_point c lon lat); simpl; by rewrite new_events_app.
Qed.

(** The child only adds to the store and to the log: extractions from
    the object it was given, and a chart of what the extraction made. *)
Lemma plot_time_series_grows location r st :
  exists h t,
    (Parameterized.plot_time_series location r st).1 =
      {| heap := heap st ++ h; trace := trace st ++ t |} /\
    forall ev, ev ∈ t ->
      (exists lon lat, ev = EvExtractPoint r lon lat) \/
      (ev = EvChartLine (length (heap st)) /\
       exists lon lat c d,
         location !! "lon" = Some lon /\ location !! "lat" = Some lat /\
         heap st !! r = Some c /\ geo_extract_point c lon lat = Ok d /\
         h = [d]).
Proof.
  rewrite plot_time_series_run.
  assert (Hst : st = {| heap := heap st ++ []; trace := trace st ++ [] |})
    by (rewrite !(right_id_L [] (++)); by destruct st).
  destruct (location !! "lat") as [lat|];
    [destruct (location !! "lon") as [lon|];
     [destruct (heap st !! r) as [c|];
      [destruct (geo_extract_point c lon lat) as [d|e] eqn:Hx|]|]|]; simpl.
  - exists [d], [EvExtractPoint r lon lat; EvChartLine (length (heap st))].
    split; [done|]. intros ev. rewrite !elem_of_cons, elem_of_nil.
    intros [->|[->|[]]]; [by eauto|].
    right. split; [done|]. by exists lon, lat, c, d.
  - exists [], [EvExtractPoint r lon lat].
    split; [by rewrite (right_id_L [] (++))|].
    intros ev. rewrite !elem_of_cons, elem_of_nil. intros [->|[]]; eauto.
  - exists [], [EvExtractPoint r lon lat].
    split; [by rewrite (right_id_L [] (++))|].
    intros ev. rewrite !elem_of_cons, elem_of_nil. intros [->|[]]; eauto.
  - exists [], []. split; [done|]. by intros ev ?%elem_of_nil.
  - exists [], []. split; [done|]. by intros ev ?%elem_of_nil.
Qed.

(** A click only adds to the store and to the log, and what it adds are
    calls of the child on the object bound by the map on screen. *)
Lemma click_grows a s location :
  exists h t,
    py (click a s location).1 =
      {| heap := heap (py s) ++ h; trace := trace (py s) ++ t |} /\
    forall ev, ev ∈ t ->
      (exists plot r lon lat,
         ev = EvExtractPoint r lon lat /\ displayed s = Some plot /\
         click_kwargs plot !! child_param_of a = Some r) \/
      ev = EvChartLine (length (heap (py s))).
Proof.
  assert (Hst : py s = {| heap := heap (py s) ++ [];
                          trace := trace (py s) ++ [] |})
    by (rewrite !(right_id_L [] (++)); by destruct (py s)).
  unfold click, click_with.
  destruct (displayed s) as [plot|] eqn:Hd;
    [|exists [], []; split; [done|]; by intros ev ?%elem_of_nil].
  rewrite click_on_map_of_eq.
  unfold Parameterized.click_on_map, call_child.
  destruct (map_to_list (delete _ (click_kwargs plot))) as [|[k ?] ?];
    [|exists [], []; split; [done|]; by intros ev ?%elem_of_nil].
  destruct (click_kwargs plot !! child_param_of a) as [r|] eqn:Hr;
    [|exists [], []; split; [done|]; by intros ev ?%elem_of_nil].
  destruct (plot_time_series_grows location r (py s)) as (h & t & Hrun & Ht).
  destruct (Parameterized.plot_time_series location r (py s)) as [st' res].
  simpl in *. exists h, t. split; [done|].
  intros ev Hin. destruct (Ht ev Hin) as [(lon & lat & ->)|[-> _]]; [|by right].
  left. by exists plot, r, lon, lat.
Qed.

End Sessions.

(** C7: for every selected year the first call of [application] is the
    catalogue query on the ERA5 monthly means with product type
    'monthly_averaged_reanalysis', the script's variable, the year as
    given, the months '01' to '12' and time '00:00'; it is the only
    retrieval of the run. *)
Theorem C7_query_verbatim (tb : Toolbox) (a : App) (y : Z) (st : PyState) :
  let st' := (application_of a y st).1 in
  trace st' = trace st ++ new_events st st' /\
  new_events st st' !! 0%nat =
    Some (EvRetrieve "reanalysis-era5-single-levels-monthly-means"
            {| product_type := "monthly_averaged_reanalysis";
               variable := [variable_of a];
               year := y;
               month := ["01"; "02"; "03"; "04"; "05"; "06";
                         "07"; "08"; "09"; "10"; "11"; "12"];
               time := "00:00" |}) /\
  forall i ds q, new_events st st' !! i = Some (EvRetrieve ds q) -> i = 0%nat.
Proof.
  rewrite application_of_eq, application_run; simpl.
  replace (Parameterized.identifier (spec_of a)) with (variable_of a)
    by by destruct a.
  destruct (catalogue_retrieve _ _) as [c|e];
    [destruct (cube_average c "time") as [g|e]|];
    simpl; rewrite new_events_app; (split; [done|split; [done|]]);
    intros [|[|[|i]]] ds q; simpl; done.
Qed.

(** C5, as stated, fails: 1999 is not an allowed year, yet
    [application(1999)] is not rejected; its first action is the catalogue
    query for 1999. *)
Lemma C5_counterexample :
  (1999 ∉ allowed_years) /\
  ~ rejected_at_boundary (tb := Demo.toolbox) TemperatureApp 1999
      (py Demo.start) /\
  trace (Temperature.application (tb := Demo.toolbox) 1999 (py Demo.start)).1
    !! 0%nat
  = Some (EvRetrieve era5_monthly (request "2m_temperature" 1999)).
Proof.
  split; [|split].
  - unfold allowed_years. rewrite !elem_of_cons, elem_of_nil. lia.
  - intros (e & _ & He).
    apply (f_equal (fun p => length (trace p.1))) in He.
    revert He. rewrite application_of_eq, application_run; simpl.
    by repeat case_match.
  - change (Temperature.application 1999)
      with (application_of (tb := Demo.toolbox) TemperatureApp 1999).
    rewrite application_of_eq, application_run; simpl.
    by repeat case_match.
Qed.

(** C5, amended: the allowed years are enforced by the dropdown alone,
    whose values are exactly 2020 to 2023.  [application] rejects no
    year: for every integer, allowed or not, it does not fail with
    InvalidSelectionError before retrieval, and its first action is the
    catalogue query for that year. *)
Theorem C5_no_validation_in_application
    (tb : Toolbox) (a : App) (y : Z) (st : PyState) :
  dd_values (dropdown_of a) = allowed_years /\
  ~ rejected_at_boundary a y st /\
  new_events st (application_of a y st).1 !! 0%nat =
    Some (EvRetrieve era5_monthly (request (variable_of a) y)).
Proof.
  split; [by destruct a|].
  unfold rejected_at_boundary.
  rewrite application_of_eq, application_run; simpl.
  replace (Parameterized.identifier (spec_of a)) with (variable_of a)
    by by destruct a.
  destruct (catalogue_retrieve _ _) as [c|e0] eqn:Hc;
    [destruct (cube_average c "time") as [g|e0] eqn:Hg|];
    simpl; rewrite new_events_app; (split; [|done]);
    intros (e & _ & He);
    apply (f_equal (fun p => length (trace p.1))) in He;
    simpl in He; rewrite length_app in He; simpl in He; lia.
Qed.

(** C10: [plot_time_series] needs a location with the keys 'lat' and
    'lon'.  Without 'lat' it raises KeyError('lat'), with 'lat' but
    without 'lon' KeyError('lon'), in both cases with the state untouched,
    so before any extraction or charting.  With both keys it returns
    whatever the extraction and then the charting of the library give. *)
Theorem C10_location_needs_lat_lon
    (tb : Toolbox) (a : App) (location : gmap string Num)
    (data : ref) (st : PyState) :
  (location !! "lat" = None ->
   plot_time_series_of a location data st = (st, Raise (KeyError "lat"))) /\
  (is_Some (location !! "lat") -> location !! "lon" = None ->
   plot_time_series_of a location data st = (st, Raise (KeyError "lon"))) /\
  (forall lat lon c,
     location !! "lat" = Some lat -> location !! "lon" = Some lon ->
     heap st !! data = Some c ->
     (plot_time_series_of a location data st).2 =
       match geo_extract_point c lon lat with
       | Ok d => chart_line d
       | Raise e => Raise e
       end).
Proof.
  rewrite plot_time_series_of_eq, plot_time_series_run.
  split; [|split].
  - by intros ->.
  - by intros [lat ->] ->.
  - intros lat lon c -> -> ->; simpl.
    by destruct (geo_extract_point c lon lat).
Qed.

Lemma C10_witness :
  (∅ : gmap string Z) !! "lat" = None /\
  is_Some (({[ "lat" := 51 ]} : gmap string Z) !! "lat") /\
  ({[ "lat" := 51 ]} : gmap string Z) !! "lon" = None /\
  Demo.london !! "lat" = Some 51 /\
  Demo.london !! "lon" = Some 0 /\
  let st := py (select_year (tb := Demo.toolbox) PrecipitationApp
                  Demo.start 2022) in
  Precipitation.plot_time_series (tb := Demo.toolbox) ∅ 0%nat st
    = (st, Raise (KeyError "lat")) /\
  Precipitation.plot_time_series (tb := Demo.toolbox) {[ "lat" := 51 ]}
    0%nat st = (st, Raise (KeyError "lon")) /\
  exists fig,
    (Precipitation.plot_time_series (tb := Demo.toolbox) Demo.london
       0%nat st).2 = Ok fig.
Proof.
  split; [reflexivity|]. split; [by eexists|].
  split; [reflexivity|]. split; [reflexivity|]. split; [reflexivity|].
  intros st. split; [|split].
  - apply (C10_location_needs_lat_lon Demo.toolbox PrecipitationApp ∅ 0%nat st).
    reflexivity.
  - apply (C10_location_needs_lat_lon Demo.toolbox PrecipitationApp
             {[ "lat" := 51 ]} 0%nat st); [by eexists | reflexivity].
  - eexists.
    refine (eq_trans
      (proj2 (proj2 (C10_location_needs_lat_lon Demo.toolbox PrecipitationApp
                Demo.london 0%nat st)) 51 0 _ _ _ _) _);
      reflexivity.
Defined.

(** C6, as stated, fails: on the demo toolbox, whose extraction takes the
    nearest grid point, a click at latitude 95 lies outside the extent of
    the dataset and the child still returns its chart. *)
Lemma C6_counterexample :
  let st := py (select_year (tb := Demo.toolbox) TemperatureApp
                  Demo.start 2021) in
  exists c,
    heap st !! 0%nat = Some c /\
    Demo.off_grid !! "lat" = Some 95 /\
    Demo.off_grid !! "lon" = Some 0 /\
    in_extent (Toolbox := Demo.toolbox) c 0 95 = false /\
    ~ fails_out_of_bounds (tb := Demo.toolbox) TemperatureApp
        Demo.off_grid 0%nat st.
Proof.
  intros st. eexists. split; [reflexivity|].
  split; [reflexivity|]. split; [reflexivity|]. split; [reflexivity|].
  intros (e & st' & _ & Hrun).
  apply (f_equal snd) in Hrun. revert Hrun.
  rewrite plot_time_series_of_eq.
  erewrite plot_time_series_result; [|reflexivity..].
  discriminate.
Qed.

(** C6, amended: [plot_time_series] checks no bounds.  At every click
    location, inside the extent or not, its outcome is the one of
    [extract_point] followed by [chart.line]: when the extraction raises,
    that exception is the outcome and nothing is charted.  In every case
    the click leaves the map on screen, its grid and every existing
    object as they were. *)
Theorem C6_no_bounds_check
    (tb : Toolbox) (a : App) (s : Session) (location : gmap string Num)
    (plot : Livemap) (r : ref) (c : Cube) (lat lon : Num) :
  displayed s = Some plot ->
  click_kwargs plot = {[ child_param_of a := r ]} ->
  heap (py s) !! r = Some c ->
  location !! "lat" = Some lat ->
  location !! "lon" = Some lon ->
  let s' := (click a s location).1 in
  displayed s' = displayed s /\
  preserved (py s) (py s') /\
  (forall g, rendered_grid s = Some g -> rendered_grid s' = Some g) /\
  (click a s location).2 =
    Some match geo_extract_point c lon lat with
         | Ok d => chart_line d
         | Raise e => Raise e
         end /\
  (forall e, geo_extract_point c lon lat = Raise e ->
     new_events (py s) (py s') = [EvExtractPoint r lon lat]).
Proof.
  intros Hd Hk Hr Hlat Hlon s'. subst s'.
  rewrite (click_bound a s location plot r Hd Hk); simpl.
  rewrite (plot_time_series_result location r (py s) lat lon c Hlat Hlon Hr).
  destruct (plot_time_series_grows location r (py s)) as (h & t & Hst & _).
  assert (Hp : preserved (py s) (Parameterized.plot_time_series location r (py s)).1)
    by (rewrite Hst; apply preserved_app).
  split; [done|]. split; [done|]. split; [|split; [done|]].
  - unfold rendered_grid; simpl. rewrite Hd. apply Hp.
  - intros e He.
    rewrite plot_time_series_run, Hlat, Hlon, Hr, He; simpl.
    apply new_events_app.
Qed.

Lemma C6_witness :
  let s := select_year (tb := Demo.toolbox) TemperatureApp Demo.start 2021 in
  exists plot c,
    displayed s = Some plot /\
    click_kwargs plot = {[ child_param_of TemperatureApp := 0%nat ]} /\
    heap (py s) !! 0%nat = Some c /\
    Demo.off_grid !! "lat" = Some 95 /\
    Demo.off_grid !! "lon" = Some 0 /\
    displayed (click TemperatureApp s Demo.off_grid).1 = displayed s /\
    exists fig, (click TemperatureApp s Demo.off_grid).2 = Some (Ok fig).
Proof.
  intros s.
  assert (Hd : displayed s =
                 Some {| layer := 1%nat;
                         click_kwargs :=
                           {[ child_param_of TemperatureApp := 0%nat ]} |})
    by reflexivity.
  eexists _, _.
  split; [exact Hd|]. split; [reflexivity|]. split; [reflexivity|].
  split; [reflexivity|]. split; [reflexivity|].
  pose proof (C6_no_bounds_check Demo.toolbox TemperatureApp s Demo.off_grid
                _ 0%nat _ 95 0 Hd eq_refl eq_refl eq_refl eq_refl)
    as (H1 & _ & _ & H4 & _).
  split; [exact H1|]. eexists. exact H4.
Defined.

(** C1: a click never queries the catalogue.  In every session the calls
    made by a click contain no retrieval, and every extraction among them
    reads the object bound in the [click_kwargs] of the map on screen.
    After a year selection that put a map on screen, that object is the
    very one the retrieval of [application] allocated: the retrieval is
    the first call of the selection, the click reads and charts from its
    result, and the object still holds what the catalogue returned. *)
Theorem C1_click_reuses_retrieved_dataset
    (tb : Toolbox) (a : App) (s : Session) (y : Z)
    (location : gmap string Num) (plot : Livemap) :
  ((forall ds q,
      EvRetrieve ds q ∉ new_events (py s) (py (click a s location).1)) /\
   (forall r lon lat,
      EvExtractPoint r lon lat ∈ new_events (py s) (py (click a s location).1) ->
      exists shown, displayed s = Some shown /\
                    click_kwargs shown !! child_param_of a = Some r)) /\
  (displayed (select_year a s y) = Some plot ->
   let s1 := select_year a s y in
   let s2 := (click a s1 location).1 in
   let r := length (heap (py s)) in
   trace (py s2) = trace (py s1) ++ new_events (py s1) (py s2) /\
   new_events (py s) (py s1) !! 0%nat =
     Some (EvRetrieve era5_monthly (request (variable_of a) y)) /\
   click_kwargs plot = {[ child_param_of a := r ]} /\
   exists c,
     catalogue_retrieve era5_monthly (request (variable_of a) y) = Ok c /\
     heap (py s1) !! r = Some c /\
     heap (py s2) !! r = Some c /\
     (forall r' lon lat,
        EvExtractPoint r' lon lat ∈ new_events (py s1) (py s2) -> r' = r) /\
     (forall r', EvChartLine r' ∈ new_events (py s1) (py s2) ->
        exists lon lat d,
          location !! "lon" = Some lon /\ location !! "lat" = Some lat /\
          geo_extract_point c lon lat = Ok d /\
          heap (py s2) !! r' = Some d)).
Proof.
  split.
  { destruct (click_grows a s location) as (h & t & -> & Ht).
    rewrite new_events_app. split.
    - intros ds q Hin.
      by destruct (Ht _ Hin) as [(? & ? & ? & ? & ? & _)|?].
    - intros r lon lat Hin.
      destruct (Ht _ Hin) as [(p & r' & ? & ? & [= -> _ _] & ? & ?)|?];
        [|done].
      by exists p. }
  intros Hd s1 s2 r.
  destruct (select_year_Some a s y plot Hd) as (c & g & Hc & Hg & Hplot & Hpy).
  assert (Hk : click_kwargs plot = {[ child_param_of a := r ]}) by by subst plot.
  assert (Hr : heap (py s1) !! r = Some c).
  { subst s1. rewrite Hpy. apply lookup_fresh_cons. }
  assert (Hev : new_events (py s) (py s1) !! 0%nat =
                Some (EvRetrieve era5_monthly (request (variable_of a) y))).
  { subst s1. rewrite Hpy. by rewrite new_events_app. }
  subst s2. rewrite (click_bound a s1 location plot r Hd Hk); simpl.
  destruct (plot_time_series_grows location r (py s1)) as (h & t & -> & Ht).
  rewrite new_events_app; simpl.
  split; [done|]. split; [done|]. split; [done|].
  exists c. split; [done|]. split; [done|].
  split; [by apply lookup_app_l_Some|]. split.
  - intros r' lon lat Hin.
    destruct (Ht _ Hin) as [(? & ? & [= -> _ _])|[? _]]; done.
  - intros r' Hin.
    destruct (Ht _ Hin) as [(? & ? & ?)|[[= ->] Hx]]; [done|].
    destruct Hx as (lon & lat & c' & d & Hlon & Hlat & Hr' & Hx & ->).
    pose proof (eq_trans (eq_sym Hr) Hr') as [= <-].
    exists lon, lat, d. by rewrite lookup_fresh.
Qed.

Lemma C1_witness :
  let s1 := select_year (tb := Demo.toolbox) TemperatureApp Demo.start 2021 in
  exists plot,
    displayed s1 = Some plot /\
    click_kwargs plot = {[ "monthly_temperature" := 0%nat ]} /\
    forall r lon lat,
      EvExtractPoint r lon lat ∈
        new_events (py s1) (py (click TemperatureApp s1 Demo.london).1) ->
      r = 0%nat.
Proof.
  intros s1. eexists. split; [reflexivity|].
  pose proof (proj2 (C1_click_reuses_retrieved_dataset Demo.toolbox
                       TemperatureApp Demo.start 2021 Demo.london _) eq_refl)
    as (_ & _ & Hk & c & _ & _ & _ & H & _).
  split; [exact Hk | exact H].
Defined.

(** C2: freshness.  After any sequence of year selections ending in [y],
    a map on screen shows the mean of the dataset retrieved for [y] and
    binds that dataset for the child: the bound object was allocated by
    the last selection (it did not exist before it), and a click extracts
    from it. *)
Theorem C2_map_and_click_use_latest_year
    (tb : Toolbox) (a : App) (s : Session) (ys : list Z) (y : Z)
    (plot : Livemap) :
  let s0 := select_years a s ys in
  let s1 := select_years a s (ys ++ [y]) in
  let r := length (heap (py s0)) in
  displayed s1 = Some plot ->
  exists c g,
    catalogue_retrieve era5_monthly (request (variable_of a) y) = Ok c /\
    cube_average c "time" = Ok g /\
    rendered_grid s1 = Some g /\
    click_kwargs plot = {[ child_param_of a := r ]} /\
    heap (py s0) !! r = None /\
    heap (py s1) !! r = Some c /\
    forall location lat lon,
      location !! "lat" = Some lat -> location !! "lon" = Some lon ->
      (click a s1 location).2 =
        Some match geo_extract_point c lon lat with
             | Ok d => chart_line d
             | Raise e => Raise e
             end /\
      new_events (py s1) (py (click a s1 location).1) !! 0%nat =
        Some (EvExtractPoint r lon lat).
Proof.
  intros s0 s1 r. subst s1 r. unfold select_years. rewrite foldl_snoc.
  fold (select_years a s ys). fold s0. clearbody s0.
  set (r := length (heap (py s0))). intros Hd.
  destruct (select_year_Some a s0 y plot Hd) as (c & g & Hc & Hg & Hplot & Hpy).
  fold r in Hplot, Hpy.
  assert (Hk : click_kwargs plot = {[ child_param_of a := r ]}) by by subst plot.
  assert (Hr : heap (py (select_year a s0 y)) !! r = Some c).
  { rewrite Hpy. apply lookup_fresh_cons. }
  exists c, g. split; [done|]. split; [done|]. split.
  { unfold rendered_grid. rewrite Hd, Hpy, Hplot; simpl.
    apply lookup_fresh_next. }
  split; [done|]. split; [by apply lookup_ge_None|]. split; [done|].
  clearbody r.
  intros location lat lon Hlat Hlon.
  rewrite (click_bound a _ location plot r Hd Hk); simpl.
  rewrite (plot_time_series_result location r _ lat lon c Hlat Hlon Hr).
  split; [done|].
  exact (plot_time_series_first_call location r _ lat lon c Hlat Hlon Hr).
Qed.

Lemma C2_witness :
  let s1 := select_years (tb := Demo.toolbox) PrecipitationApp Demo.start
              ([2020] ++ [2021]) in
  exists plot,
    displayed s1 = Some plot /\
    click_kwargs plot = {[ "monthly_precipitation" := 2%nat ]} /\
    exists c,
      catalogue_retrieve (Toolbox := Demo.toolbox) era5_monthly
        (request "total_precipitation" 2021) = Ok c /\
      heap (py s1) !! 2%nat = Some c.
Proof.
  intros s1. eexists. split; [reflexivity|].
  destruct (C2_map_and_click_use_latest_year Demo.toolbox PrecipitationApp
              Demo.start [2020] 2021 _ eq_refl)
    as (c & g & Hc & _ & _ & Hk & _ & Hr & _).
  split; [exact Hk|]. exists c. split; [exact Hc | exact Hr].
Defined.

(** C8: idempotence.  For one snapshot of the catalogue, the grid on
    screen after selecting [y] depends on nothing but the script's
    variable and [y]: it is the annual mean of that variable for [y]
    whenever the library draws it, and no grid otherwise, whatever the
    session held before.  So two sessions show the same grid for [y], and
    selecting [y] twice in a row shows the same grid both times. *)
Theorem C8_same_year_same_grid
    (tb : Toolbox) (a : App) (s s' : Session) (y : Z) :
  rendered_grid (select_year a s y) = shown_mean (variable_of a) y /\
  (forall g, rendered_grid (select_year a s y) = Some g ->
             annual_mean (variable_of a) y = Some g) /\
  rendered_grid (select_year a s y) = rendered_grid (select_year a s' y) /\
  rendered_grid (select_year a (select_year a s y) y) =
    rendered_grid (select_year a s y).
Proof.
  assert (H : forall s0, rendered_grid (select_year a s0 y)
                         = shown_mean (variable_of a) y).
  { intros s0.
    unfold rendered_grid, shown_mean, annual_mean, select_year,
      select_year_with.
    rewrite application_of_eq, application_run; simpl.
    replace (Parameterized.identifier (spec_of a)) with (variable_of a)
      by by destruct a.
    destruct (catalogue_retrieve _ _) as [c|e]; [|done].
    destruct (cube_average c "time") as [g|e]; [|done]. simpl.
    destruct (livemap_plot g) as [[]|e]; [|done]. simpl.
    apply lookup_fresh_next. }
  rewrite !H. split; [done|]. split; [|done].
  unfold shown_mean. intros g.
  destruct (annual_mean (variable_of a) y) as [g'|]; [|done].
  by destruct (livemap_plot g'); intros [= <-].
Qed.

(** The demo toolbox keeps the contract of the library. *)
Lemma imap_keeps_labels {A B} (f : nat -> A -> B) (l : list A) :
  (imap (fun i x => (x, f i x)) l).*1 = l.
Proof.
  revert f. induction l as [|x l IH]; intros f; [done|].
  simpl. f_equal. apply (IH (f ∘ S)).
Qed.

Lemma within_nonempty xs x : Demo.within xs x = true -> xs <> [].
Proof. by destruct xs. Qed.

Lemma nearest_nonempty xs x : xs <> [] -> is_Some (Demo.nearest xs x).
Proof. destruct xs; [done|]. by eexists. Qed.

Lemma Demo_contract : ToolboxContract Demo.toolbox.
Proof.
  split.
  - intros ds q c. change (catalogue_retrieve ds q) with (Demo.retrieve ds q).
    unfold Demo.retrieve. repeat case_match; (intros [= <-] || done). done.
  - intros ds q c. change (catalogue_retrieve ds q) with (Demo.retrieve ds q).
    unfold Demo.retrieve. repeat case_match; (intros [= <-] || done). done.
  - intros c d g. change (cube_average c d) with (Demo.average c d).
    unfold Demo.average. repeat case_decide; (intros [= <-] || done). done.
  - intros c lon lat.
    change (in_extent c lon lat) with (Demo.extent c lon lat).
    change (geo_extract_point c lon lat) with (Demo.extract_point c lon lat).
    unfold Demo.extent, Demo.extract_point.
    intros [Hla Hlo]%andb_true_iff.
    destruct (nearest_nonempty _ lat (within_nonempty _ _ Hla)) as [i ->].
    destruct (nearest_nonempty _ lon (within_nonempty _ _ Hlo)) as [j ->].
    by eexists.
  - intros c lon lat d.
    change (geo_extract_point c lon lat) with (Demo.extract_point c lon lat).
    unfold Demo.extract_point.
    destruct (Demo.nearest _ lat); [|done].
    destruct (Demo.nearest _ lon); [|done].
    intros [= <-]. apply imap_keeps_labels.
Qed.

(** C3: with a toolbox that keeps its contract, whenever the library's
    retrieval, averaging and map plot succeed for a year, selecting that
    year puts a map on screen, and a click inside the extent of the
    retrieved dataset charts a series of exactly twelve (month, value)
    pairs whose months are 1, 2, ..., 12 in this order.  This holds for
    every year, in particular for 2020 to 2023. *)
Theorem C3_twelve_points_in_month_order
    (tb : Toolbox) (HC : ToolboxContract tb) (a : App) (s : Session) (y : Z)
    (location : gmap string Num) (lat lon : Num) (c g : Cube) :
  catalogue_retrieve era5_monthly (request (variable_of a) y) = Ok c ->
  cube_average c "time" = Ok g ->
  livemap_plot g = Ok tt ->
  location !! "lat" = Some lat ->
  location !! "lon" = Some lon ->
  in_extent c lon lat = true ->
  let s1 := select_year a s y in
  let s2 := (click a s1 location).1 in
  is_Some (displayed s1) /\
  exists d,
    geo_extract_point c lon lat = Ok d /\
    new_events (py s1) (py s2) =
      [EvExtractPoint (length (heap (py s))) lon lat;
       EvChartLine (length (heap (py s1)))] /\
    heap (py s2) !! length (heap (py s1)) = Some d /\
    (click a s1 location).2 = Some (chart_line d) /\
    length (point_series d) = 12%nat /\
    month_number <$> (point_series d).*1 = Some <$> seq 1 12.
Proof.
  intros Hc Hg Hp Hlat Hlon Hin s1 s2.
  pose proof (select_year_shows a s y c g Hc Hg Hp) as Hs1. fold s1 in Hs1.
  set (r := length (heap (py s))) in *.
  set (plot := {| layer := S r;
                  click_kwargs := {[ child_param_of a := r ]} |}) in *.
  assert (Hd : displayed s1 = Some plot) by by rewrite Hs1.
  split; [by eexists|].
  destruct (extract_total c lon lat Hin) as [d Hx].
  pose proof (extract_months c lon lat d Hx) as Hm.
  rewrite (retrieve_months _ _ _ Hc) in Hm. simpl in Hm.
  assert (Hr : heap (py s1) !! r = Some c).
  { rewrite Hs1. apply lookup_fresh_cons. }
  exists d. split; [done|]. subst s2.
  rewrite (click_bound a s1 location plot r Hd eq_refl); simpl.
  rewrite (plot_time_series_result location r _ lat lon c Hlat Hlon Hr), Hx.
  assert (Hrun : (Parameterized.plot_time_series location r (py s1)).1 =
                 {| heap := heap (py s1) ++ [d];
                    trace := trace (py s1) ++
                      [EvExtractPoint r lon lat;
                       EvChartLine (length (heap (py s1)))] |}).
  { clearbody s1 r. rewrite plot_time_series_run, Hlat, Hlon; simpl.
    replace (heap (py s1) !! r) with (Some c). by rewrite Hx. }
  rewrite Hrun, new_events_app; simpl.
  split; [done|]. split; [apply lookup_fresh|]. split; [done|].
  split.
  - rewrite <- (length_fmap fst), Hm. reflexivity.
  - rewrite Hm. reflexivity.
Qed.

Lemma C3_witness :
  let s1 := select_year (tb := Demo.toolbox) TemperatureApp Demo.start 2021 in
  exists c g,
    catalogue_retrieve (Toolbox := Demo.toolbox) era5_monthly
      (request (variable_of TemperatureApp) 2021) = Ok c /\
    cube_average (Toolbox := Demo.toolbox) c "time" = Ok g /\
    livemap_plot (Toolbox := Demo.toolbox) g = Ok tt /\
    Demo.london !! "lat" = Some 51 /\
    Demo.london !! "lon" = Some 0 /\
    in_extent (Toolbox := Demo.toolbox) c 0 51 = true /\
    exists d,
      (click TemperatureApp s1 Demo.london).2
        = Some (chart_line (Toolbox := Demo.toolbox) d) /\
      length (point_series (Toolbox := Demo.toolbox) d) = 12%nat.
Proof.
  intros s1. eexists _, _.
  split; [reflexivity|]. split; [reflexivity|]. split; [reflexivity|].
  split; [reflexivity|]. split; [reflexivity|]. split; [reflexivity|].
  destruct (C3_twelve_points_in_month_order Demo.toolbox Demo_contract
              TemperatureApp Demo.start 2021 Demo.london 51 0 _ _
              eq_refl eq_refl eq_refl eq_refl eq_refl eq_refl)
    as (_ & d & _ & _ & _ & Hfig & Hlen & _).
  exists d. split; [exact Hfig | exact Hlen].
Defined.

(** C4: for every dataset a year selection retrieves, the selection
    averages that very object over 'time', as its second library call and
    whatever the session did before; the dataset object is new, still
    holds what the retrieval returned, and no object that existed before
    is changed.  When the averaging succeeds, its result is a new object,
    a grid over (lat, lon), and it is this object that is handed to the
    map plot; when the plot succeeds too, it is the grid on screen. *)
Theorem C4_grid_is_time_average
    (tb : Toolbox) (HC : ToolboxContract tb) (a : App) (s : Session) (y : Z)
    (c : Cube) :
  catalogue_retrieve era5_monthly (request (variable_of a) y) = Ok c ->
  let s1 := select_year a s y in
  let r := length (heap (py s)) in
  new_events (py s) (py s1) !! 1%nat = Some (EvAverage r "time") /\
  heap (py s) !! r = None /\
  heap (py s1) !! r = Some c /\
  preserved (py s) (py s1) /\
  forall g, cube_average c "time" = Ok g ->
    cube_dims g = ["lat"; "lon"] /\
    heap (py s1) !! S r = Some g /\
    new_events (py s) (py s1) !! 2%nat =
      Some (EvLivemapPlot (S r) {[ child_param_of a := r ]}) /\
    (livemap_plot g = Ok tt ->
     displayed s1 =
       Some {| layer := S r; click_kwargs := {[ child_param_of a := r ]} |} /\
     rendered_grid s1 = Some g).
Proof.
  intros Hc s1 r.
  destruct (select_year_retrieved a s y c Hc) as (h & t & Hpy & Hg).
  fold s1 r in Hpy, Hg.
  split; [by rewrite Hpy, new_events_app|].
  split; [by apply lookup_ge_None|].
  split; [rewrite Hpy; apply lookup_fresh_cons|].
  split; [rewrite Hpy; apply preserved_app|].
  intros g Hav. destruct (Hg g Hav) as [-> ->].
  split.
  { rewrite (average_dims _ _ _ Hav), (retrieve_dims _ _ _ Hc). reflexivity. }
  split; [rewrite Hpy; apply lookup_fresh_next|].
  split; [by rewrite Hpy, new_events_app|].
  intros Hp. pose proof (select_year_shows a s y c g Hc Hav Hp) as Hs1.
  fold s1 r in Hs1. unfold rendered_grid. rewrite Hs1; simpl.
  split; [done|]. apply lookup_fresh_next.
Qed.

Lemma C4_witness :
  let s1 :=
    select_year (tb := Demo.toolbox) PrecipitationApp Demo.start 2023 in
  exists c g,
    catalogue_retrieve (Toolbox := Demo.toolbox) era5_monthly
      (request (variable_of PrecipitationApp) 2023) = Ok c /\
    cube_average (Toolbox := Demo.toolbox) c "time" = Ok g /\
    livemap_plot (Toolbox := Demo.toolbox) g = Ok tt /\
    rendered_grid s1 = Some g /\
    cube_dims (Toolbox := Demo.toolbox) g = ["lat"; "lon"].
Proof.
  intros s1. eexists _, _.
  split; [reflexivity|]. split; [reflexivity|]. split; [reflexivity|].
  destruct (C4_grid_is_time_average Demo.toolbox Demo_contract
              PrecipitationApp Demo.start 2023 _ eq_refl)
    as (_ & _ & _ & _ & H).
  destruct (H _ eq_refl) as (Hdims & _ & _ & Hshown).
  destruct (Hshown eq_refl) as [_ Hgrid].
  split; [exact Hgrid | exact Hdims].
Defined.

(** The name of the child's data parameter cannot be observed. *)
Lemma observe_param_irrelevant {tb : Toolbox}
    v kw1 kw2 (s : Session) y location :
  observe (click_with (Parameterized.click_on_map kw1)
             (select_year_with (Parameterized.application v kw1) s y)
             location)
  = observe (click_with (Parameterized.click_on_map kw2)
               (select_year_with (Parameterized.application v kw2) s y)
               location).
Proof.
  unfold select_year_with, click_with, Parameterized.click_on_map.
  rewrite !application_run; simpl.
  destruct (catalogue_retrieve _ _) as [c|e]; [|done].
  destruct (cube_average c "time") as [g|e]; [|done]. simpl.
  destruct (livemap_plot g) as [[]|e];
    [|unfold observe; simpl; rewrite !fmap_app; simpl;
      by rewrite !map_to_list_singleton].
  simpl.
  rewrite !call_child_singleton, !plot_time_series_run; simpl.
  rewrite !lookup_fresh_cons.
  unfold observe.
  destruct (location !! "lat") as [lat|];
    [destruct (location !! "lon") as [lon|];
     [destruct (geo_extract_point c lon lat) as [d|e]|]|];
    simpl; rewrite ?fmap_app; simpl; by rewrite !map_to_list_singleton.
Qed.

(** C9: both scripts are the parameterized program at their own variable,
    title and parameter name; their children are the same function and
    their dropdowns the same declaration.  Script [a] with the variable
    and title of script [b] put in its place behaves as script [b]: for
    every year and click location the store, the library calls, the map
    and the chart are the same. *)
Theorem C9_two_instances_of_one_program
    (tb : Toolbox) (a b : App) (s : Session) (y : Z)
    (location : gmap string Num) :
  application_of a =
    Parameterized.application (spec_of a) (child_param_of a) /\
  click_on_map_of a = Parameterized.click_on_map (child_param_of a) /\
  plot_time_series_of a = plot_time_series_of b /\
  decl_of a = Parameterized.decl (spec_of a) /\
  dropdown_of a = dropdown_of b /\
  observe (click_with (Parameterized.click_on_map (child_param_of a))
             (select_year_with
                (Parameterized.application (spec_of b) (child_param_of a))
                s y)
             location)
  = observe (click b (select_year b s y) location).
Proof.
  split; [apply application_of_eq|]. split; [apply click_on_map_of_eq|].
  split; [by rewrite !plot_time_series_of_eq|].
  split; [by destruct a|]. split; [by destruct a, b|].
  unfold click, select_year.
  rewrite (application_of_eq b), (click_on_map_of_eq b).
  apply observe_param_irrelevant.
Qed.

(** * Further properties of the scripts *)

(** X1: when the catalogue query raises, [application] raises the same
    exception; the query is its only library call and nothing is
    allocated, so neither the averaging nor the map is reached. *)
Theorem X1_retrieval_failure_propagates
    (tb : Toolbox) (a : App) (y : Z) (st : PyState) (e : exn) :
  catalogue_retrieve era5_monthly (request (variable_of a) y) = Raise e ->
  application_of a y st =
    ({| heap := heap st;
        trace := trace st ++
          [EvRetrieve era5_monthly (request (variable_of a) y)] |},
     Raise e).
Proof.
  intros He. rewrite application_of_eq, application_run; simpl.
  replace (Parameterized.identifier (spec_of a)) with (variable_of a)
    by by destruct a.
  by rewrite He.
Qed.

Lemma X1_witness :
  catalogue_retrieve (Toolbox := Demo.toolbox) era5_monthly
    (request (variable_of PrecipitationApp) 1900)
    = Raise (Exn "Exception" "no data for this year") /\
  (Precipitation.application (tb := Demo.toolbox) 1900 (py Demo.start)).2
    = Raise (Exn "Exception" "no data for this year").
Proof.
  split; [reflexivity|].
  exact (f_equal snd
           (X1_retrieval_failure_propagates Demo.toolbox PrecipitationApp
              1900 (py Demo.start) _ eq_refl)).
Defined.

(** X2: when the query succeeds and the averaging raises, [application]
    raises that exception after exactly two library calls; the dataset
    has been allocated, [ct.livemap.plot] is never called. *)
Theorem X2_average_failure_propagates
    (tb : Toolbox) (a : App) (y : Z) (st : PyState) (c : Cube) (e : exn) :
  catalogue_retrieve era5_monthly (request (variable_of a) y) = Ok c ->
  cube_average c "time" = Raise e ->
  application_of a y st =
    ({| heap := heap st ++ [c];
        trace := trace st ++
          [EvRetrieve era5_monthly (request (variable_of a) y);
           EvAverage (length (heap st)) "time"] |},
     Raise e).
Proof.
  intros Hc He. rewrite application_of_eq, application_run; simpl.
  replace (Parameterized.identifier (spec_of a)) with (variable_of a)
    by by destruct a.
  by rewrite Hc, He.
Qed.

Lemma X2_witness :
  exists c,
    catalogue_retrieve (Toolbox := Demo.toolbox_without_average) era5_monthly
      (request (variable_of TemperatureApp) 2020) = Ok c /\
    cube_average (Toolbox := Demo.toolbox_without_average) c "time"
      = Raise (Exn "MemoryError" "average") /\
    (Temperature.application (tb := Demo.toolbox_without_average) 2020
       {| heap := []; trace := [] |}).2
      = Raise (Exn "MemoryError" "average").
Proof.
  eexists. split; [reflexivity|]. split; [reflexivity|].
  exact (f_equal snd
           (X2_average_failure_propagates Demo.toolbox_without_average
              TemperatureApp 2020 {| heap := []; trace := [] |} _ _
              eq_refl eq_refl)).
Defined.

(** X3: [plot_time_series] reads nothing of the location but the keys
    'lat' and 'lon': two locations that agree on these two keys give the
    same run, whatever else they hold. *)
Theorem X3_only_lat_lon_are_read
    (tb : Toolbox) (a : App) (loc1 loc2 : gmap string Num)
    (data : ref) (st : PyState) :
  loc1 !! "lat" = loc2 !! "lat" ->
  loc1 !! "lon" = loc2 !! "lon" ->
  plot_time_series_of a loc1 data st = plot_time_series_of a loc2 data st.
Proof.
  intros Hlat Hlon.
  by rewrite plot_time_series_of_eq, !plot_time_series_run, Hlat, Hlon.
Qed.

Lemma X3_witness :
  Demo.london !! "lat" = Demo.london_zoomed !! "lat" /\
  Demo.london !! "lon" = Demo.london_zoomed !! "lon" /\
  Demo.london <> Demo.london_zoomed /\
  let st := py (select_year (tb := Demo.toolbox) TemperatureApp
                  Demo.start 2021) in
  Temperature.plot_time_series (tb := Demo.toolbox) Demo.london 0%nat st
  = Temperature.plot_time_series (tb := Demo.toolbox) Demo.london_zoomed
      0%nat st.
Proof.
  split; [reflexivity|]. split; [reflexivity|]. split.
  { intros H. apply (f_equal (fun m => m !! "zoom")) in H. discriminate H. }
  intros st.
  exact (X3_only_lat_lon_are_read Demo.toolbox TemperatureApp Demo.london
           Demo.london_zoomed 0%nat st eq_refl eq_refl).
Defined.

Lemma child_param_of_inj a b : child_param_of a = child_param_of b -> a = b.
Proof. by destruct a, b. Qed.

(** X4: the keyword under which [application] binds the dataset is the
    name of the data parameter of the child of the same script.  When
    [application] returns its map, a click on it reaches the script's own
    [plot_time_series] with the retrieved dataset; the child of the other
    script rejects the map's keyword arguments with a TypeError, before
    any library call. *)
Theorem X4_kwargs_fit_own_child_only
    (tb : Toolbox) (a b : App) (y : Z) (location : gmap string Num)
    (st : PyState) (c g : Cube) :
  catalogue_retrieve era5_monthly (request (variable_of a) y) = Ok c ->
  cube_average c "time" = Ok g ->
  livemap_plot g = Ok tt ->
  a <> b ->
  exists st1 plot,
    application_of a y st = (st1, Ok plot) /\
    heap st1 !! length (heap st) = Some c /\
    click_on_map_of a location (click_kwargs plot) st1
      = plot_time_series_of a location (length (heap st)) st1 /\
    exists e,
      exn_class e = "TypeError" /\
      click_on_map_of b location (click_kwargs plot) st1 = (st1, Raise e).
Proof.
  intros Hc Hg Hp Hab.
  rewrite application_of_eq, application_run; simpl.
  replace (Parameterized.identifier (spec_of a)) with (variable_of a)
    by by destruct a.
  rewrite Hc, Hg, Hp. eexists _, _. split; [done|]. simpl.
  split; [apply lookup_fresh_cons|]. split.
  - rewrite click_on_map_of_eq, plot_time_series_of_eq.
    unfold Parameterized.click_on_map. by rewrite call_child_singleton.
  - rewrite click_on_map_of_eq.
    unfold Parameterized.click_on_map, call_child.
    assert (Hne : child_param_of b <> child_param_of a)
      by (intros H; by apply Hab, child_param_of_inj).
    rewrite delete_singleton_ne by done.
    rewrite map_to_list_singleton.
    eexists. split; [|reflexivity]. reflexivity.
Qed.

Lemma X4_witness :
  exists c g,
    catalogue_retrieve (Toolbox := Demo.toolbox) era5_monthly
      (request (variable_of TemperatureApp) 2021) = Ok c /\
    cube_average (Toolbox := Demo.toolbox) c "time" = Ok g /\
    livemap_plot (Toolbox := Demo.toolbox) g = Ok tt /\
    TemperatureApp <> PrecipitationApp /\
    exists st1 plot e,
      Temperature.application (tb := Demo.toolbox) 2021 (py Demo.start)
        = (st1, Ok plot) /\
      exn_class e = "TypeError" /\
      Precipitation.click_on_map (tb := Demo.toolbox) Demo.london
        (click_kwargs plot) st1 = (st1, Raise e).
Proof.
  assert (H : TemperatureApp <> PrecipitationApp) by discriminate.
  eexists _, _. split; [reflexivity|]. split; [reflexivity|].
  split; [reflexivity|]. split; [exact H|].
  destruct (X4_kwargs_fit_own_child_only Demo.toolbox TemperatureApp
              PrecipitationApp 2021 Demo.london (py Demo.start) _ _
              eq_refl eq_refl eq_refl H)
    as (st1 & plot & Hrun & _ & _ & e & He & Hb).
  by exists st1, plot, e.
Defined.

Section Interleavings.
Context {tb : Toolbox}.

Lemma retrievals_app (t1 t2 : list event) :
  retrievals (t1 ++ t2) = (retrievals t1 + retrievals t2)%nat.
Proof. unfold retrievals. by rewrite List.filter_app, length_app. Qed.

Lemma retrievals_none (t : list event) :
  (forall ev, ev ∈ t -> is_retrieve ev = false) -> retrievals t = 0%nat.
Proof.
  unfold retrievals. induction t as [|ev t IH]; intros H; [done|]. simpl.
  rewrite (H ev) by (apply elem_of_cons; by left).
  apply IH. intros ev' Hin. apply H. apply elem_of_cons. by right.
Qed.

(** A year selection adds to store and log, with one catalogue query. *)
Lemma select_year_grows a s y :
  exists h t,
    py (select_year a s y) =
      {| heap := heap (py s) ++ h; trace := trace (py s) ++ t |} /\
    retrievals t = 1%nat.
Proof.
  unfold select_year, select_year_with.
  rewrite application_of_eq, application_run; simpl.
  destruct (catalogue_retrieve _ _) as [c|e];
    [destruct (cube_average c "time") as [g|e]|]; simpl.
  - by eexists [c; g], _.
  - by eexists [c], _.
  - eexists [], _. by rewrite (right_id_L [] (++)).
Qed.

(** A click adds to store and log, without a catalogue query. *)
Lemma click_no_retrieval a s location :
  exists h t,
    py (click a s location).1 =
      {| heap := heap (py s) ++ h; trace := trace (py s) ++ t |} /\
    retrievals t = 0%nat.
Proof.
  destruct (click_grows a s location) as (h & t & Hpy & Ht).
  exists h, t. split; [done|]. apply retrievals_none. intros ev Hin.
  by destruct (Ht ev Hin) as [(? & ? & ? & ? & -> & _)| ->].
Qed.

Lemma run_grows a evs : forall s,
  exists h t,
    py (run a s evs) =
      {| heap := heap (py s) ++ h; trace := trace (py s) ++ t |} /\
    retrievals t = selections evs.
Proof.
  induction evs as [|ev evs IH]; intros s.
  - exists [], []. split; [|done].
    rewrite !(right_id_L [] (++)). unfold run; simpl. by destruct (py s).
  - destruct (IH (step a s ev)) as (h2 & t2 & Hrun & Hn2).
    assert (exists h1 t1,
              py (step a s ev) =
                {| heap := heap (py s) ++ h1; trace := trace (py s) ++ t1 |} /\
              retrievals t1 = if is_selection ev then 1%nat else 0%nat)
      as (h1 & t1 & Hstep & Hn1).
    { destruct ev as [y|location]; simpl;
        [apply select_year_grows | apply click_no_retrieval]. }
    exists (h1 ++ h2), (t1 ++ t2). split.
    + change (run a s (ev :: evs)) with (run a (step a s ev) evs).
      rewrite Hrun, Hstep; simpl. by rewrite !(assoc_L (++)).
    + rewrite retrievals_app, Hn1, Hn2. unfold selections; simpl.
      by destruct (is_selection ev).
Qed.

(** A click leaves the map on screen and the object it binds as they
    were. *)
Lemma click_keeps_bound a s location :
  displayed (click a s location).1 = displayed s /\
  forall plot r,
    displayed s = Some plot ->
    click_kwargs plot !! child_param_of a = Some r ->
    heap (py (click a s location).1) !! r = heap (py s) !! r.
Proof.
  unfold click, click_with.
  destruct (displayed s) as [plot|] eqn:Hd; [|done].
  rewrite click_on_map_of_eq.
  unfold Parameterized.click_on_map, call_child.
  destruct (map_to_list (delete _ (click_kwargs plot))) as [|[k ?] ?];
    [|done].
  destruct (click_kwargs plot !! child_param_of a) as [r|] eqn:Hr; [|done].
  rewrite plot_time_series_run. cbv zeta.
  destruct (location !! "lat") as [lat|];
    [destruct (location !! "lon") as [lon|];
     [destruct (heap (py s) !! r) as [c|] eqn:Hc;
      [destruct (geo_extract_point c lon lat) as [d|e]|]|]|];
    simpl; (split; [done|]);
    intros plot' r' [= <-] Hr'; rewrite Hr in Hr'; injection Hr' as <-;
    try done.
  rewrite Hc. by apply lookup_app_l_Some.
Qed.

(** The outcome of a click depends on the session only through the map
    on screen and the object it binds. *)
Lemma click_outcome_local a s s' location :
  displayed s' = displayed s ->
  (forall plot r,
     displayed s = Some plot ->
     click_kwargs plot !! child_param_of a = Some r ->
     heap (py s') !! r = heap (py s) !! r) ->
  (click a s' location).2 = (click a s location).2.
Proof.
  intros Hd Hb. unfold click, click_with. rewrite Hd.
  destruct (displayed s) as [plot|] eqn:Hs; [|done].
  rewrite click_on_map_of_eq.
  unfold Parameterized.click_on_map, call_child.
  destruct (map_to_list (delete _ (click_kwargs plot))) as [|[k ?] ?];
    [|done].
  destruct (click_kwargs plot !! child_param_of a) as [r|] eqn:Hr; [|done].
  specialize (Hb plot r eq_refl Hr).
  rewrite !plot_time_series_run, Hb. cbv zeta.
  repeat case_match; by simplify_eq.
Qed.

End Interleavings.

Section Clicks.
Context {tb : Toolbox}.

(** The grid a year selection puts on screen. *)
Lemma select_year_grid a s y :
  rendered_grid (select_year a s y) = shown_mean (variable_of a) y /\
  (displayed (select_year a s y) = None \/
   is_Some (rendered_grid (select_year a s y))).
Proof.
  unfold rendered_grid, shown_mean, annual_mean, select_year,
    select_year_with.
  rewrite application_of_eq, application_run; simpl.
  replace (Parameterized.identifier (spec_of a)) with (variable_of a)
    by by destruct a.
  destruct (catalogue_retrieve _ _) as [c|e]; [|by split; [|left]].
  destruct (cube_average c "time") as [g|e]; [|by split; [|left]].
  destruct (livemap_plot g) as [[]|e]; [|by split; [|left]].
  simpl. rewrite lookup_fresh_next. split; [done|]. right. by eexists.
Qed.

(** One click leaves a valid grid on screen as it was. *)
Lemma click_keeps_grid a s location :
  displayed s = None \/ is_Some (rendered_grid s) ->
  rendered_grid (click a s location).1 = rendered_grid s.
Proof.
  intros Hv. destruct (click_keeps_bound a s location) as [Hd _].
  destruct (click_grows a s location) as (h & t & Hpy & _).
  unfold rendered_grid in *. rewrite Hd, Hpy; simpl.
  destruct (displayed s) as [plot|]; [|done].
  destruct Hv as [|[g Hg]]; [done|].
  rewrite Hg. by apply lookup_app_l_Some.
Qed.

Lemma clicks_keep_grid a locs : forall s,
  displayed s = None \/ is_Some (rendered_grid s) ->
  displayed (run a s (Click <$> locs)) = displayed s /\
  rendered_grid (run a s (Click <$> locs)) = rendered_grid s.
Proof.
  induction locs as [|l locs IH]; intros s Hv; [done|].
  change (run a s (Click <$> l :: locs))
    with (run a (click a s l).1 (Click <$> locs)).
  pose proof (click_keeps_grid a s l Hv) as Hg.
  destruct (click_keeps_bound a s l) as [Hd _].
  destruct (IH (click a s l).1) as [Hd' Hg'].
  { rewrite Hd, Hg. exact Hv. }
  split; [by rewrite Hd', Hd | by rewrite Hg', Hg].
Qed.

Lemma clicks_keep_bound a locs : forall s,
  displayed (run a s (Click <$> locs)) = displayed s /\
  forall plot r,
    displayed s = Some plot ->
    click_kwargs plot !! child_param_of a = Some r ->
    heap (py (run a s (Click <$> locs))) !! r = heap (py s) !! r.
Proof.
  induction locs as [|l locs IH]; intros s; [done|].
  change (run a s (Click <$> l :: locs))
    with (run a (click a s l).1 (Click <$> locs)).
  destruct (click_keeps_bound a s l) as [Hd Hb].
  destruct (IH (click a s l).1) as [Hd' Hb'].
  split; [by rewrite Hd', Hd|].
  intros plot r Hs Hr.
  rewrite (Hb' plot r) by (by rewrite ?Hd). by apply (Hb plot).
Qed.

End Clicks.

(** X5: in any interleaving of year selections and clicks, the log only
    grows, no object of the store is changed, and the number of catalogue
    queries made is exactly the number of year selections: one per
    selection, none per click. *)
Theorem X5_one_query_per_selection
    (tb : Toolbox) (a : App) (s : Session) (evs : list ui_event) :
  let s' := run a s evs in
  trace (py s') = trace (py s) ++ new_events (py s) (py s') /\
  retrievals (new_events (py s) (py s')) = selections evs /\
  preserved (py s) (py s').
Proof.
  intros s'. subst s'.
  destruct (run_grows a evs s) as (h & t & -> & Hn).
  rewrite new_events_app; simpl.
  split; [done|]. split; [done|]. apply preserved_app.
Qed.

(** X6: clicks never change the grid on the map.  After a year
    selection followed by any number of clicks, the grid on screen is
    still the one the selection put there: the annual mean of the
    selected year when the library drew it, no grid otherwise.  The
    objects the clicks allocate never take the place of the mean. *)
Theorem X6_clicks_keep_the_map
    (tb : Toolbox) (a : App) (s : Session) (y : Z)
    (locs : list (gmap string Num)) :
  let s1 := select_year a s y in
  let s2 := run a s1 (Click <$> locs) in
  rendered_grid s2 = rendered_grid s1 /\
  rendered_grid s2 = shown_mean (variable_of a) y.
Proof.
  intros s1 s2. subst s1 s2.
  destruct (select_year_grid a s y) as [Hg Hv].
  destruct (clicks_keep_grid a locs _ Hv) as [Hd' Hg'].
  split; [done|]. by rewrite Hg', Hg.
Qed.

(** X7: clicks do not interfere with each other.  The outcome of a click
    is the same after any number of earlier clicks as without them. *)
Theorem X7_clicks_do_not_interfere
    (tb : Toolbox) (a : App) (s : Session)
    (locs : list (gmap string Num)) (location : gmap string Num) :
  (click a (run a s (Click <$> locs)) location).2 = (click a s location).2.
Proof.
  destruct (clicks_keep_bound a locs s) as [Hd Hb].
  by apply click_outcome_local.
Qed.
